(** * OFF: observation-point chains and the wind-farm aggregate

    A shallow embedding of [off/observation_points.py] and [off/windfarm.py].

    Numbers.  The state tables are [numpy] arrays of [float64].  The code is
    embedded over an interface [Scalar] of the operations it applies to such
    numbers (product, sum, cosine, sine, conversion of a chain index), so
    that every statement about which cells are written, with which
    expression, holds whatever the arithmetic does.  The arithmetic of the
    code is the instance [Float64.Scalar_float64]: binary64 products, sums
    and quotients, with the cosine and sine of the C library as parameters.
    The instance of real numbers is used only for values that binary64
    computes exactly (small integers, products with 0).

    Effects.  A method mutates [self] and may raise; methods are computations
    in a state-and-exception monad whose state survives a raise, as the
    attributes of a Python object do. *)

From Stdlib Require Import String Arith ZArith Reals Lra Lia List.
From Stdlib Require Floats.
Import ListNotations.

Set Implicit Arguments.

(** ** Python exceptions and the method monad *)

Inductive exn : Type :=
| AttributeError
| IndexError
| TypeError
| ValueError.

Module Py.

(** A computation over a mutable object of type [S]: a result or an
    exception, and the object as the computation left it. *)
Definition py (S A : Type) : Type := S -> (exn + A) * S.

Definition ret {S A : Type} (a : A) : py S A := fun s => (inr a, s).

Definition raise {S A : Type} (e : exn) : py S A := fun s => (inl e, s).

Definition bind {S A B : Type} (m : py S A) (k : A -> py S B) : py S B :=
  fun s =>
    match m s with
    | (inr a, s') => k a s'
    | (inl e, s') => (inl e, s')
    end.

(** A pure expression that may raise, used inside a method. *)
Definition lift {S A : Type} (r : exn + A) : py S A := fun s => (r, s).

(** The object after the call, whether or not it raised. *)
Definition exec {S A : Type} (m : py S A) (s : S) : S := snd (m s).

(** What the call returned or raised. *)
Definition eval {S A : Type} (m : py S A) (s : S) : exn + A := fst (m s).

End Py.

Import Py.

Declare Scope py_scope.
Delimit Scope py_scope with py.
Notation "x <- m ;; k" := (bind m (fun x => k))
  (at level 61, m at next level, right associativity) : py_scope.
Notation "m ;;; k" := (bind m (fun _ => k))
  (at level 61, right associativity) : py_scope.

(** ** The numbers of a [float64] array *)

Class Scalar (F : Type) : Type := {
  zero : F;
  (** [float(i)] for a chain index [i], as [np.arange(n) * wind_speed]
      converts the integers of [np.arange]. *)
  of_nat : nat -> F;
  add : F -> F -> F;
  mul : F -> F -> F;
  div : F -> F -> F;
  pi : F;
  cos : F -> F;
  sin : F -> F
}.

Declare Scope np_scope.
Delimit Scope np_scope with np.
Infix "+" := add : np_scope.
Infix "*" := mul : np_scope.
Infix "/" := div : np_scope.

(** Real numbers, the exact arithmetic that [float64] approximates. *)
#[export] Instance Scalar_R : Scalar R := {
  zero := 0%R;
  of_nat := INR;
  add := Rplus;
  mul := Rmult;
  div := Rdiv;
  pi := PI;
  cos := Rtrigo_def.cos;
  sin := Rtrigo_def.sin
}.

(** ** Two-dimensional [numpy] arrays *)

Module NumPy.
Section Array.
Context {F : Type} {SF : Scalar F}.

(** A 2-D array: its shape, which [numpy] stores with the array, and its
    rows. *)
Record ndarray : Type := mk_ndarray {
  nrows : nat;
  ncols : nat;
  rows : list (list F)
}.

Definition shape (a : ndarray) : nat * nat := (nrows a, ncols a).

(** The rows agree with the stored shape. *)
Definition wf (a : ndarray) : Prop :=
  length (rows a) = nrows a /\
  Forall (fun r => length r = ncols a) (rows a).

(** [np.zeros((n, w))] *)
Definition zeros (n w : nat) : ndarray :=
  mk_ndarray n w (repeat (repeat zero w) n).

(** [np.arange(n)] *)
Definition arange (n : nat) : list nat := seq 0 n.

(** The values of column [j], in row order. *)
Definition col (j : nat) (a : ndarray) : list F :=
  map (fun r => nth j r zero) (rows a).

(** [a[:, lo:hi]]: a slice is clipped to the columns that exist. *)
Definition slice_cols (lo hi : nat) (a : ndarray) : ndarray :=
  mk_ndarray (nrows a) (Nat.min hi (ncols a) - lo)
             (map (fun r => firstn (hi - lo) (skipn lo r)) (rows a)).

(** [v[i]] for a 1-D array and a constant index [i]. *)
Definition getitem (v : list F) (i : nat) : exn + F :=
  match nth_error v i with
  | Some x => inr x
  | None => inl IndexError
  end.

(** The right-hand side of an assignment to a column: a number or a 1-D
    array. *)
Inductive rhs : Type :=
| Number (x : F)
| Vector (v : list F).

(** Broadcasting of the right-hand side to a column of [n] cells. *)
Definition broadcast (n : nat) (v : rhs) : exn + list F :=
  match v with
  | Number x => inr (repeat x n)
  | Vector l =>
      if length l =? n then inr l
      else match l with
           | [x] => inr (repeat x n)
           | _ => inl ValueError
           end
  end.

(** Cell [j] of a row replaced. *)
Fixpoint upd (j : nat) (x : F) (r : list F) : list F :=
  match r, j with
  | [], _ => []
  | _ :: r', O => x :: r'
  | y :: r', S j' => y :: upd j' x r'
  end.

(** Column [j] of the rows replaced, cell by cell, by the values [v]. *)
Fixpoint set_col_rows (j : nat) (v : list F) (rs : list (list F))
  : list (list F) :=
  match rs, v with
  | r :: rs', x :: v' => upd j x r :: set_col_rows j v' rs'
  | _, _ => rs
  end.

(** [a[:, j] = v] *)
Definition set_col (j : nat) (v : rhs) (a : ndarray) : exn + ndarray :=
  if j <? ncols a then
    match broadcast (nrows a) v with
    | inr l => inr (mk_ndarray (nrows a) (ncols a)
                               (set_col_rows j l (rows a)))
    | inl e => inl e
    end
  else inl IndexError.

End Array.
Arguments ndarray F : clear implicits.
End NumPy.

Import NumPy.

(** ** [off.states.States]: the state history every chain inherits *)

Module States.
Section States.
Context {F : Type} {SF : Scalar F}.

(** Modelled from the spec: the instance attributes that [States.__init__]
    of [off/states.py] sets; that file is not among the sources.  The table
    is the attribute the subclasses read and write as [self.states], the
    chain length N the one they read as [self.n_time_steps], and the width W
    is kept next to it.  A length is a natural number: [np.zeros] rejects a
    negative dimension. *)
Record States : Type := mk_States {
  states : ndarray F;
  n_time_steps : nat;
  n_states : nat
}.

(** What an attribute of the object holds. *)
Inductive value : Type :=
| Int (n : nat)
| Array (a : ndarray F).

(** [self.name]: only the three attributes the class sets exist. *)
Definition getattr (name : string) : py States value :=
  fun self =>
    if String.eqb name "states" then (inr (Array (states self)), self)
    else if String.eqb name "n_time_steps"
         then (inr (Int (n_time_steps self)), self)
    else if String.eqb name "n_states" then (inr (Int (n_states self)), self)
    else (inl AttributeError, self).

(** [self.name] where the code goes on to index it as an array. *)
Definition getattr_array (name : string) : py States (ndarray F) :=
  (v <- getattr name ;;
   match v with
   | Array a => ret a
   | Int _ => raise TypeError
   end)%py.

(** [self.name] where the code goes on to use it as an integer. *)
Definition getattr_int (name : string) : py States nat :=
  (v <- getattr name ;;
   match v with
   | Int n => ret n
   | Array _ => raise TypeError
   end)%py.

(** [self.states[:, j] = v]: the array that [self.states] refers to is
    updated in place. *)
Definition setitem_states_col (j : nat) (v : rhs) : py States unit :=
  (a <- getattr_array "states" ;;
   fun self =>
     match set_col j v a with
     | inr a' => (inr tt, mk_States a' (n_time_steps self) (n_states self))
     | inl e => (inl e, self)
     end)%py.

(** Modelled from the spec: [States.__init__] of [off/states.py], which is
    not among the sources.  A freshly constructed chain has a table of shape
    exactly N x W, zero at creation, and keeps N and W as constants; the
    attribute names are the ones the subclasses read. *)
Definition __init__ (number_of_time_steps number_of_states : nat) : States :=
  mk_States (zeros number_of_time_steps number_of_states)
            number_of_time_steps number_of_states.

(** Modelled from the spec: [States.get_all_states] of [off/states.py],
    whole-table read access. *)
Definition get_all_states : py States (ndarray F) :=
  getattr_array "states".

(** Modelled from the spec: [States.set_all_states] of [off/states.py].  The
    whole table is replaced; a table whose shape is not exactly N x W fails
    with a shape-mismatch error, immediately and with no partial mutation. *)
Definition set_all_states (table : ndarray F) : py States unit :=
  (n <- getattr_int "n_time_steps" ;;
   w <- getattr_int "n_states" ;;
   if andb (nrows table =? n) (ncols table =? w)
   then fun self =>
          (inr tt, mk_States table (n_time_steps self) (n_states self))
   else raise ValueError)%py.

(** The invariant of a chain of width [w]: the table is N x W. *)
Definition chain (w : nat) (self : States) : Prop :=
  wf (states self) /\
  nrows (states self) = n_time_steps self /\
  ncols (states self) = w /\
  n_states self = w.

End States.
Arguments States F : clear implicits.
Arguments value F : clear implicits.
End States.

Import States.

(** ** [off.utils.OFFTools] *)

Module OFFTools.
Section OFFTools.
Context {F : Type} {SF : Scalar F}.

(** Modelled from the spec: [OFFTools.deg2rad] of [off/utils.py], which is
    not among the sources; it converts a direction in degrees to radians. *)
Definition deg2rad (deg : F) : F := (deg * pi / of_nat 180)%np.

End OFFTools.
End OFFTools.

(** ** [off.observation_points] *)

Module ObservationPoints.
Section ObservationPoints.
Context {F : Type} {SF : Scalar F}.

(** [ObservationPoints.__init__] hands both arguments to [States.__init__]. *)
Definition __init__ (number_of_time_steps number_of_states : nat) : States F :=
  States.__init__ number_of_time_steps number_of_states.

End ObservationPoints.
End ObservationPoints.

Module FLORIDynOPs4.
Section FLORIDynOPs4.
Context {F : Type} {SF : Scalar F}.

Definition __init__ (number_of_time_steps : nat) : States F :=
  ObservationPoints.__init__ number_of_time_steps 4.

(** [return self.states[:, 0:3]] *)
Definition get_world_coord : py (States F) (ndarray F) :=
  (a <- getattr_array "states" ;;
   ret (slice_cols 0 3 a))%py.

Definition init_all_states (wind_speed wind_direction : F)
    (rotor_pos : list F) (time_step : F) : py (States F) unit :=
  (n <- getattr_int "n_time_steps" ;;
   let dw := map (fun i => of_nat i * wind_speed)%np (arange n) in
   let c := cos (OFFTools.deg2rad wind_direction) in
   x <- lift (getitem rotor_pos 0) ;;
   setitem_states_col 0 (Vector (map (fun d => c * d + x)%np dw)) ;;;
   let s := sin (OFFTools.deg2rad wind_direction) in
   y <- lift (getitem rotor_pos 1) ;;
   setitem_states_col 1 (Vector (map (fun d => s * d + y)%np dw)) ;;;
   z <- lift (getitem rotor_pos 2) ;;
   setitem_states_col 2 (Number z) ;;;
   setitem_states_col 3 (Vector dw))%py.

End FLORIDynOPs4.
End FLORIDynOPs4.

Module FLORIDynOPs6.
Section FLORIDynOPs6.
Context {F : Type} {SF : Scalar F}.

Definition __init__ (number_of_time_steps : nat) : States F :=
  ObservationPoints.__init__ number_of_time_steps 6.

(** [return self.op_list[:, 0:3]] *)
Definition get_world_coord : py (States F) (ndarray F) :=
  (a <- getattr_array "op_list" ;;
   ret (slice_cols 0 3 a))%py.

Definition init_all_states (wind_speed wind_direction : F)
    (rotor_pos : list F) (time_step : F) : py (States F) unit :=
  (n <- getattr_int "n_time_steps" ;;
   let dw := map (fun i => of_nat i * wind_speed)%np (arange n) in
   let c := cos (OFFTools.deg2rad wind_direction) in
   x <- lift (getitem rotor_pos 0) ;;
   setitem_states_col 0 (Vector (map (fun d => c * d + x)%np dw)) ;;;
   let s := sin (OFFTools.deg2rad wind_direction) in
   y <- lift (getitem rotor_pos 1) ;;
   setitem_states_col 1 (Vector (map (fun d => s * d + y)%np dw)) ;;;
   z <- lift (getitem rotor_pos 2) ;;
   setitem_states_col 2 (Number z) ;;;
   setitem_states_col 3 (Vector dw))%py.

End FLORIDynOPs6.
End FLORIDynOPs6.

(** ** [off.windfarm] *)

Module WindFarm.
Section WindFarm.

(** [off.turbine.Turbine] is not among the sources and the values of the
    solver settings are not constrained: both are left open. *)
Variables (Turbine Setting : Type).

(** A [dict] with string keys, in insertion order. *)
Definition dict : Type := list (string * Setting).

(** The attribute the class body sets: [time_step = -1]. *)
Definition class_time_step : Z := (-1)%Z.

(** The instance attributes; [time_step] is absent from the instance until
    it is assigned. *)
Record WindFarm : Type := mk_WindFarm {
  turbines : list Turbine;
  settings_sol : dict;
  instance_time_step : option Z
}.

Definition __init__ (turbines : list Turbine) (settings_sol : dict)
  : WindFarm :=
  mk_WindFarm turbines settings_sol None.

(** [self.time_step]: the instance attribute when there is one, the class
    attribute otherwise. *)
Definition time_step (self : WindFarm) : Z :=
  match instance_time_step self with
  | Some t => t
  | None => class_time_step
  end.

End WindFarm.
End WindFarm.

(** ** Notions used in the statements *)

Section Notions.
Context {F : Type} {SF : Scalar F}.

(** The object with the rows of its table replaced and nothing else
    changed. *)
Definition with_rows (self : States F) (rs : list (list F)) : States F :=
  mk_States (mk_ndarray (nrows (states self)) (ncols (states self)) rs)
            (n_time_steps self) (n_states self).

(** The downstream distances [np.arange(n) * wind_speed]. *)
Definition ramp (n : nat) (wind_speed : F) : list F :=
  map (fun i => of_nat i * wind_speed)%np (arange n).

(** The x coordinates computed on line 102 (and 152). *)
Definition xs (n : nat) (wind_speed wind_direction x : F) : list F :=
  map (fun d => cos (OFFTools.deg2rad wind_direction) * d + x)%np
      (ramp n wind_speed).

(** The y coordinates computed on line 103 (and 153). *)
Definition ys (n : nat) (wind_speed wind_direction y : F) : list F :=
  map (fun d => sin (OFFTools.deg2rad wind_direction) * d + y)%np
      (ramp n wind_speed).

(** The rows after the four column assignments. *)
Definition filled (n : nat) (wind_speed wind_direction x y z : F)
    (rs : list (list F)) : list (list F) :=
  set_col_rows 3 (ramp n wind_speed)
    (set_col_rows 2 (repeat z n)
      (set_col_rows 1 (ys n wind_speed wind_direction y)
        (set_col_rows 0 (xs n wind_speed wind_direction x) rs))).

End Notions.

(** ** [float64]: the arithmetic of the tables *)

Module Float64.
Import PrimInt63 PrimFloat.

(** The [int64] of [np.arange] for a chain index. *)
Fixpoint int_of_nat (i : nat) : int :=
  match i with
  | O => 0%uint63
  | S j => PrimInt63.add (int_of_nat j) 1%uint63
  end.

(** [float(i)]: the conversion [np.arange(n) * wind_speed] applies to each
    index before the product. *)
Definition float_of_nat (i : nat) : float := of_uint63 (int_of_nat i).

(** binary64 with round-to-nearest-even, as [numpy] computes on [float64];
    [np.pi] is the binary64 number nearest to pi.  The cosine and the sine
    come from the C library and are parameters. *)
Definition Scalar_float64 (libm_cos libm_sin : float -> float)
  : Scalar float :=
  Build_Scalar 0%float float_of_nat PrimFloat.add PrimFloat.mul PrimFloat.div
               0x1.921fb54442d18p+1%float libm_cos libm_sin.

(** [a == b] on [float64]. *)
Definition eq64 (a b : float) : Prop := PrimFloat.eqb a b = true.


(** Neither an infinity nor a NaN. *)
Definition finite (a : float) : Prop := PrimFloat.is_finite a = true.





(** Stand-ins for the C library in examples at wind direction 0, where the
    code evaluates only [cos 0 = 1] and [sin 0 = 0]. *)
Definition cos_at_0 (a : float) : float := 1%float.

Definition sin_at_0 (a : float) : float := 0%float.

End Float64.

(** * Properties *)

(** ** Rows and columns *)

Section ArrayFacts.
Context {F : Type} {SF : Scalar F}.

Lemma upd_length (j : nat) (x : F) (r : list F) :
  length (upd j x r) = length r.
Proof.
  revert j; induction r as [|y r IH]; intros [|j]; simpl; auto.
Qed.

Lemma nth_upd_same (j : nat) (x d : F) (r : list F) :
  j < length r -> nth j (upd j x r) d = x.
Proof.
  revert j; induction r as [|y r IH]; intros [|j] Hj; simpl in *;
    try lia; auto.
  apply IH; lia.
Qed.

Lemma nth_upd_other (j k : nat) (x d : F) (r : list F) :
  j <> k -> nth k (upd j x r) d = nth k r d.
Proof.
  revert j k; induction r as [|y r IH]; intros [|j] [|k] Hjk; simpl;
    auto; try congruence.
Qed.

Lemma upd_upd (j : nat) (x y : F) (r : list F) :
  upd j x (upd j y r) = upd j x r.
Proof.
  revert j; induction r as [|z r IH]; intros [|j]; simpl; auto.
  now rewrite IH.
Qed.

Lemma upd_comm (j k : nat) (x y : F) (r : list F) :
  j <> k -> upd j x (upd k y r) = upd k y (upd j x r).
Proof.
  revert j k; induction r as [|z r IH]; intros [|j] [|k] Hjk; simpl;
    auto; try congruence.
  rewrite IH; auto.
Qed.

Lemma set_col_rows_length (j : nat) (v : list F) (rs : list (list F)) :
  length (set_col_rows j v rs) = length rs.
Proof.
  revert v; induction rs as [|r rs IH]; intros [|x v]; simpl; auto.
Qed.

Lemma set_col_rows_widths (j w : nat) (v : list F) (rs : list (list F)) :
  Forall (fun r => length r = w) rs ->
  Forall (fun r => length r = w) (set_col_rows j v rs).
Proof.
  intros H; revert v; induction H as [|r rs Hr Hrs IH]; intros [|x v];
    simpl; auto.
  constructor; [now rewrite upd_length | apply IH].
Qed.

Lemma set_col_rows_idem (j : nat) (v : list F) (rs : list (list F)) :
  set_col_rows j v (set_col_rows j v rs) = set_col_rows j v rs.
Proof.
  revert v; induction rs as [|r rs IH]; intros [|x v]; simpl; auto.
  now rewrite upd_upd, IH.
Qed.

Lemma set_col_rows_comm (j k : nat) (v u : list F) (rs : list (list F)) :
  j <> k ->
  set_col_rows j v (set_col_rows k u rs)
  = set_col_rows k u (set_col_rows j v rs).
Proof.
  intros Hjk; revert v u; induction rs as [|r rs IH]; intros [|x v] [|y u];
    simpl; auto.
  now rewrite upd_comm, IH.
Qed.

(** Reading back the column that was written. *)
Lemma col_set_col_rows_same (j : nat) (v : list F) (rs : list (list F)) :
  length v = length rs ->
  Forall (fun r => j < length r) rs ->
  map (fun r => nth j r zero) (set_col_rows j v rs) = v.
Proof.
  intros Hl H; revert v Hl; induction H as [|r rs Hr Hrs IH];
    intros [|x v] Hl; simpl in *; try discriminate; auto.
  rewrite nth_upd_same by assumption.
  f_equal; apply IH; lia.
Qed.

(** The other columns keep their values. *)
Lemma col_set_col_rows_other (j k : nat) (v : list F) (rs : list (list F)) :
  j <> k ->
  map (fun r => nth k r zero) (set_col_rows j v rs)
  = map (fun r => nth k r zero) rs.
Proof.
  intros Hjk; revert v; induction rs as [|r rs IH]; intros [|x v];
    simpl; auto.
  now rewrite nth_upd_other, IH.
Qed.

Lemma broadcast_vector (n : nat) (l : list F) :
  length l = n -> broadcast n (Vector l) = inr l.
Proof.
  intros H; simpl. now rewrite (proj2 (Nat.eqb_eq _ _) H).
Qed.

Lemma widths_lt (j w : nat) (rs : list (list F)) :
  j < w ->
  Forall (fun r => length r = w) rs -> Forall (fun r => j < length r) rs.
Proof.
  intros Hj H; eapply Forall_impl; [|exact H]; simpl; intros; lia.
Qed.

End ArrayFacts.

(** ** The method monad *)

Section ChainFacts.
Context {F : Type} {SF : Scalar F}.

Lemma with_rows_fields (self : States F) (rs : list (list F)) :
  ncols (states (with_rows self rs)) = ncols (states self) /\
  nrows (states (with_rows self rs)) = nrows (states self) /\
  n_time_steps (with_rows self rs) = n_time_steps self /\
  n_states (with_rows self rs) = n_states self /\
  rows (states (with_rows self rs)) = rs.
Proof. repeat split. Qed.

Lemma with_rows_with_rows (self : States F) (rs rs' : list (list F)) :
  with_rows (with_rows self rs) rs' = with_rows self rs'.
Proof. reflexivity. Qed.

Lemma getattr_int_n_time_steps (self : States F) :
  getattr_int "n_time_steps" self = (inr (n_time_steps self), self).
Proof. reflexivity. Qed.

Lemma getattr_array_states (self : States F) :
  getattr_array "states" self = (inr (states self), self).
Proof. reflexivity. Qed.

(** An attribute the class never sets. *)
Lemma getattr_array_op_list (self : States F) :
  getattr_array "op_list" self = (inl AttributeError, self).
Proof. reflexivity. Qed.

Lemma setitem_states_col_eq (j : nat) (v : rhs) (self : States F) :
  setitem_states_col j v self
  = if j <? ncols (states self) then
      match broadcast (nrows (states self)) v with
      | inr l =>
          (inr tt, with_rows self (set_col_rows j l (rows (states self))))
      | inl e => (inl e, self)
      end
    else (inl IndexError, self).
Proof.
  unfold setitem_states_col, set_col, bind; simpl.
  destruct (j <? ncols (states self)); [|reflexivity].
  destruct (broadcast _ v); reflexivity.
Qed.

Lemma ramp_length (n : nat) (ws : F) : length (ramp n ws) = n.
Proof. unfold ramp, arange. now rewrite length_map, length_seq. Qed.

Lemma xs_length (n : nat) (ws wd x : F) : length (xs n ws wd x) = n.
Proof. unfold xs. now rewrite length_map, ramp_length. Qed.

Lemma ys_length (n : nat) (ws wd y : F) : length (ys n ws wd y) = n.
Proof. unfold ys. now rewrite length_map, ramp_length. Qed.

(** The two variants run the same initialisation. *)
Lemma init_all_states_6_is_4 :
  @FLORIDynOPs6.init_all_states F SF = @FLORIDynOPs4.init_all_states F SF.
Proof. reflexivity. Qed.

End ChainFacts.

Ltac with_rows_simpl :=
  repeat first
    [ rewrite (proj1 (with_rows_fields _ _))
    | rewrite (proj1 (proj2 (with_rows_fields _ _)))
    | rewrite (proj1 (proj2 (proj2 (with_rows_fields _ _))))
    | rewrite (proj1 (proj2 (proj2 (proj2 (with_rows_fields _ _)))))
    | rewrite (proj2 (proj2 (proj2 (proj2 (with_rows_fields _ _)))))
    | rewrite with_rows_with_rows ].

(** Case analysis on the checks a call makes. *)
Ltac split_checks :=
  repeat match goal with
  | H : ?c = _ |- context [?c] => rewrite H
  | |- context [match getitem ?rp ?i with _ => _ end] =>
      destruct (getitem rp i) eqn:?
  | |- context [if ?j <? ?n then _ else _] => destruct (j <? n) eqn:?
  | |- context [match broadcast ?n ?v with _ => _ end] =>
      destruct (broadcast n v) eqn:?
  end.

(** Assignments to distinct columns commute and repeat without effect:
    bring them to increasing column order. *)
Ltac sort_cols :=
  repeat first
    [ rewrite set_col_rows_idem
    | rewrite (@set_col_rows_comm _ 0 1) by discriminate
    | rewrite (@set_col_rows_comm _ 0 2) by discriminate
    | rewrite (@set_col_rows_comm _ 0 3) by discriminate
    | rewrite (@set_col_rows_comm _ 1 2) by discriminate
    | rewrite (@set_col_rows_comm _ 1 3) by discriminate
    | rewrite (@set_col_rows_comm _ 2 3) by discriminate ].

(** ** Initialisation of a chain *)

Section InitFacts.
Context {F : Type} {SF : Scalar F}.

(** The call spelled out: each check of the four assignments, and the rows
    written so far when one of them raises. *)
Lemma init_all_states_eq (ws wd ts : F) (rp : list F) (self : States F) :
  FLORIDynOPs4.init_all_states ws wd rp ts self
  = let a := states self in
    let n := n_time_steps self in
    match getitem rp 0 with
    | inl e => (inl e, self)
    | inr x =>
    if 0 <? ncols a then
    match broadcast (nrows a) (Vector (xs n ws wd x)) with
    | inl e => (inl e, self)
    | inr l0 =>
    let r0 := set_col_rows 0 l0 (rows a) in
    match getitem rp 1 with
    | inl e => (inl e, with_rows self r0)
    | inr y =>
    if 1 <? ncols a then
    match broadcast (nrows a) (Vector (ys n ws wd y)) with
    | inl e => (inl e, with_rows self r0)
    | inr l1 =>
    let r1 := set_col_rows 1 l1 r0 in
    match getitem rp 2 with
    | inl e => (inl e, with_rows self r1)
    | inr z =>
    if 2 <? ncols a then
    match broadcast (nrows a) (Number z) with
    | inl e => (inl e, with_rows self r1)
    | inr l2 =>
    let r2 := set_col_rows 2 l2 r1 in
    if 3 <? ncols a then
    match broadcast (nrows a) (Vector (ramp n ws)) with
    | inl e => (inl e, with_rows self r2)
    | inr l3 => (inr tt, with_rows self (set_col_rows 3 l3 r2))
    end
    else (inl IndexError, with_rows self r2)
    end
    else (inl IndexError, with_rows self r1)
    end
    end
    else (inl IndexError, with_rows self r0)
    end
    end
    else (inl IndexError, self)
    end.
Proof.
  unfold FLORIDynOPs4.init_all_states, bind, lift.
  rewrite getattr_int_n_time_steps.
  fold (ramp (n_time_steps self) ws). cbv zeta.
  destruct (getitem rp 0) as [e|x]; [reflexivity|].
  fold (xs (n_time_steps self) ws wd x).
  rewrite setitem_states_col_eq.
  destruct (0 <? _); [|reflexivity].
  destruct (broadcast _ _) as [e|l0]; [reflexivity|].
  destruct (getitem rp 1) as [e|y]; [reflexivity|].
  fold (ys (n_time_steps self) ws wd y).
  rewrite setitem_states_col_eq; with_rows_simpl.
  destruct (1 <? _); [|reflexivity].
  destruct (broadcast _ _) as [e|l1]; [reflexivity|].
  destruct (getitem rp 2) as [e|z]; [reflexivity|].
  rewrite setitem_states_col_eq; with_rows_simpl.
  destruct (2 <? _); [|reflexivity].
  destruct (broadcast _ _) as [e|l2]; [reflexivity|].
  rewrite setitem_states_col_eq; with_rows_simpl.
  destruct (3 <? _); [|reflexivity].
  destruct (broadcast _ _) as [e|l3]; reflexivity.
Qed.

(** On a chain of width at least four and a rotor position of three
    coordinates no check fails and the four columns are written. *)
Lemma init_all_states_chain (w : nat) (ws wd x y z ts : F)
    (self : States F) :
  chain w self -> 4 <= w ->
  FLORIDynOPs4.init_all_states ws wd [x; y; z] ts self
  = (inr tt,
     with_rows self
       (filled (n_time_steps self) ws wd x y z (rows (states self)))).
Proof.
  intros (Hwf & Hn & Hw & Hs) H4.
  assert (Hlt : forall j, j < 4 -> (j <? w) = true)
    by (intros; apply Nat.ltb_lt; lia).
  rewrite init_all_states_eq; cbv zeta; cbn [getitem nth_error].
  rewrite Hw, Hn, !Hlt by lia.
  rewrite !broadcast_vector by
    (rewrite ?xs_length, ?ys_length, ?ramp_length; reflexivity).
  reflexivity.
Qed.

Lemma filled_length (n : nat) (ws wd x y z : F) (rs : list (list F)) :
  length (filled n ws wd x y z rs) = length rs.
Proof. unfold filled. now rewrite !set_col_rows_length. Qed.

Lemma filled_widths (n w : nat) (ws wd x y z : F) (rs : list (list F)) :
  Forall (fun r => length r = w) rs ->
  Forall (fun r => length r = w) (filled n ws wd x y z rs).
Proof. intros H. unfold filled. now repeat apply set_col_rows_widths. Qed.

(** The initialised chain is a chain. *)
Lemma chain_with_rows_filled (w : nat) (ws wd x y z : F) (self : States F) :
  chain w self ->
  chain w (with_rows self
             (filled (n_time_steps self) ws wd x y z (rows (states self)))).
Proof.
  intros ((Hl & Hr) & Hn & Hw & Hs).
  repeat split; cbn; auto.
  - now rewrite filled_length.
  - now apply filled_widths.
Qed.

(** The call returns normally on a chain and leaves a chain. *)
Lemma init_all_states_preserves_chain (w : nat) (ws wd x y z ts : F)
    (self : States F) :
  chain w self -> 4 <= w ->
  eval (FLORIDynOPs4.init_all_states ws wd [x; y; z] ts) self = inr tt /\
  chain w (exec (FLORIDynOPs4.init_all_states ws wd [x; y; z] ts) self).
Proof.
  intros Hc H4. unfold eval, exec.
  rewrite (init_all_states_chain ws wd x y z ts Hc H4). cbn [fst snd].
  split; [reflexivity | now apply chain_with_rows_filled].
Qed.

End InitFacts.

(** ** The columns of an initialised chain *)

Section ColumnFacts.
Context {F : Type} {SF : Scalar F}.

Lemma filled_cols (n w : nat) (ws wd x y z : F) (rs : list (list F)) :
  length rs = n -> Forall (fun r => length r = w) rs -> 4 <= w ->
  map (fun r => nth 0 r zero) (filled n ws wd x y z rs) = xs n ws wd x /\
  map (fun r => nth 1 r zero) (filled n ws wd x y z rs) = ys n ws wd y /\
  map (fun r => nth 2 r zero) (filled n ws wd x y z rs) = repeat z n /\
  map (fun r => nth 3 r zero) (filled n ws wd x y z rs) = ramp n ws.
Proof.
  intros Hl Hw H4. unfold filled.
  assert (W : forall j v rs', j < 4 ->
            length v = n -> length rs' = n ->
            Forall (fun r => length r = w) rs' ->
            map (fun r => nth j r zero) (set_col_rows j v rs') = v).
  { intros j v rs' Hj Hv Hrs' HF. apply col_set_col_rows_same.
    - congruence.
    - apply widths_lt with w; [lia | assumption]. }
  repeat split.
  - rewrite !(@col_set_col_rows_other _ _ _ 0) by discriminate.
    apply W; auto using xs_length.
  - rewrite !(@col_set_col_rows_other _ _ _ 1) by discriminate.
    apply W; rewrite ?set_col_rows_length; auto using ys_length.
    now apply set_col_rows_widths.
  - rewrite !(@col_set_col_rows_other _ _ _ 2) by discriminate.
    apply W; rewrite ?set_col_rows_length, ?repeat_length; auto.
    now repeat apply set_col_rows_widths.
  - apply W; rewrite ?set_col_rows_length; auto using ramp_length.
    now repeat apply set_col_rows_widths.
Qed.

Lemma filled_other_cols (n j : nat) (ws wd x y z : F) (rs : list (list F)) :
  4 <= j ->
  map (fun r => nth j r zero) (filled n ws wd x y z rs)
  = map (fun r => nth j r zero) rs.
Proof.
  intros Hj. unfold filled.
  rewrite !col_set_col_rows_other by lia. reflexivity.
Qed.

(** What a successful initialisation leaves in the table. *)
Lemma init_all_states_cols (w : nat) (ws wd x y z ts : F) (self : States F) :
  chain w self -> 4 <= w ->
  let n := n_time_steps self in
  let self' := exec (FLORIDynOPs4.init_all_states ws wd [x; y; z] ts) self in
  col 0 (states self') = xs n ws wd x /\
  col 1 (states self') = ys n ws wd y /\
  col 2 (states self') = repeat z n /\
  col 3 (states self') = ramp n ws /\
  (forall j, 4 <= j -> col j (states self') = col j (states self)).
Proof.
  intros Hc H4 n self'. subst self'. unfold exec.
  rewrite (init_all_states_chain ws wd x y z ts Hc H4). cbn [snd].
  destruct Hc as ((Hl & Hr) & Hn & Hw & Hs).
  unfold col; with_rows_simpl.
  assert (Hlen : length (rows (states self)) = n) by (subst n; congruence).
  rewrite Hw in Hr.
  destruct (@filled_cols n w ws wd x y z (rows (states self)) Hlen Hr H4)
    as (H0 & H1 & H2 & H3).
  repeat split; try assumption.
  intros j Hj. now apply filled_other_cols.
Qed.

End ColumnFacts.

(** ** Freshly constructed chains *)

Section FreshChains.
Context {F : Type} {SF : Scalar F}.

Lemma zeros_wf (n w : nat) : wf (@zeros F SF n w).
Proof.
  split; cbn.
  - apply repeat_length.
  - apply Forall_forall. intros r Hr.
    apply repeat_spec in Hr. subst r. apply repeat_length.
Qed.

Lemma chain_States_init (n w : nat) : chain w (@States.__init__ F SF n w).
Proof. repeat split; try apply zeros_wf. Qed.

Lemma chain_FLORIDynOPs4 (n : nat) : chain 4 (@FLORIDynOPs4.__init__ F SF n).
Proof. apply chain_States_init. Qed.

Lemma chain_FLORIDynOPs6 (n : nat) : chain 6 (@FLORIDynOPs6.__init__ F SF n).
Proof. apply chain_States_init. Qed.

End FreshChains.

(** ** World coordinates *)

Section WorldCoord.
Context {F : Type} {SF : Scalar F}.

Lemma slice_cols_0_3 (w : nat) (a : ndarray F) :
  wf a -> ncols a = w -> 3 <= w ->
  shape (slice_cols 0 3 a) = (nrows a, 3) /\
  wf (slice_cols 0 3 a) /\
  forall j, j < 3 -> col j (slice_cols 0 3 a) = col j a.
Proof.
  intros (Hl & Hr) Hw H3. repeat split.
  - unfold shape, slice_cols; cbn [nrows ncols].
    rewrite Hw, Nat.min_l, Nat.sub_0_r by lia. reflexivity.
  - cbn. now rewrite length_map.
  - unfold slice_cols; cbn [nrows ncols rows].
    rewrite Forall_map. eapply Forall_impl; [|exact Hr].
    cbn beta. intros r Hlen. rewrite Hw, Nat.min_l by lia.
    rewrite length_firstn. cbn [skipn Nat.sub]. lia.
  - intros j Hj. unfold col, slice_cols; cbn [rows]. rewrite map_map.
    apply map_ext. intros r. change (3 - 0) with 3. change (skipn 0 r) with r.
    rewrite nth_firstn.
    now rewrite (proj2 (Nat.ltb_lt _ _) Hj).
Qed.

(** The 4-state variant returns the N x 3 matrix of columns 0, 1, 2 of the
    table, and leaves the table as it was. *)
Lemma FLORIDynOPs4_get_world_coord_columns (self : States F) :
  chain 4 self ->
  exists a,
    FLORIDynOPs4.get_world_coord self = (inr a, self) /\
    shape a = (n_time_steps self, 3) /\
    wf a /\
    forall j, j < 3 -> col j a = col j (states self).
Proof.
  intros (Hwf & Hn & Hw & Hs).
  exists (slice_cols 0 3 (states self)).
  destruct (@slice_cols_0_3 4 (states self) Hwf Hw) as (H1 & H2 & H3);
    [lia|].
  split; [reflexivity|].
  split; [now rewrite H1, Hn|].
  split; assumption.
Qed.

(** C1, for the 6-state variant: [get_world_coord] reads [self.op_list], an
    attribute no constructor sets, where the table is [self.states]; on every
    chain the call raises [AttributeError] and returns no matrix. *)
Theorem FLORIDynOPs6_get_world_coord_raises (self : States F) :
  FLORIDynOPs6.get_world_coord self = (inl AttributeError, self).
Proof.
  unfold FLORIDynOPs6.get_world_coord, bind.
  now rewrite getattr_array_op_list.
Qed.

End WorldCoord.

(** ** Claims about [init_all_states] that hold for any arithmetic *)

Section InitClaims.
Context {F : Type} {SF : Scalar F}.

(** C2, as the code has it: on a 6-state chain [init_all_states] leaves the
    wake-frame columns 4 and 5 as they were, and writes column 3 with the
    downstream distances next to the world columns 0, 1 and 2. *)
Theorem FLORIDynOPs6_init_all_states_columns
    (ws wd x y z ts : F) (self : States F) :
  chain 6 self ->
  let n := n_time_steps self in
  let self' := exec (FLORIDynOPs6.init_all_states ws wd [x; y; z] ts) self in
  col 4 (states self') = col 4 (states self) /\
  col 5 (states self') = col 5 (states self) /\
  col 3 (states self') = ramp n ws /\
  col 0 (states self') = xs n ws wd x /\
  col 1 (states self') = ys n ws wd y /\
  col 2 (states self') = repeat z n.
Proof.
  intros Hc n self'. subst n self'. rewrite init_all_states_6_is_4.
  destruct (@init_all_states_cols F SF 6 ws wd x y z ts self Hc)
    as (H0 & H1 & H2 & H3 & Hj); [lia|].
  repeat split; auto.
Qed.

(** C6: the state table after [init_all_states], and what the call returns,
    do not depend on [time_step], for either variant. *)
Theorem init_all_states_ignores_time_step
    (ws wd : F) (rotor_pos : list F) (t1 t2 : F) (self : States F) :
  FLORIDynOPs4.init_all_states ws wd rotor_pos t1 self
  = FLORIDynOPs4.init_all_states ws wd rotor_pos t2 self /\
  FLORIDynOPs6.init_all_states ws wd rotor_pos t1 self
  = FLORIDynOPs6.init_all_states ws wd rotor_pos t2 self.
Proof. split; reflexivity. Qed.

Lemma FLORIDynOPs4_second_call
    (ws wd : F) (rotor_pos : list F) (ts : F) (self : States F) :
  exec (FLORIDynOPs4.init_all_states ws wd rotor_pos ts)
       (exec (FLORIDynOPs4.init_all_states ws wd rotor_pos ts) self)
  = exec (FLORIDynOPs4.init_all_states ws wd rotor_pos ts) self.
Proof.
  unfold exec. rewrite (init_all_states_eq ws wd ts rotor_pos self).
  cbv zeta.
  split_checks; cbn [snd];
    rewrite init_all_states_eq; cbv zeta; with_rows_simpl;
    split_checks; cbn [snd]; with_rows_simpl; sort_cols; reflexivity.
Qed.

(** C7: for either variant, every argument tuple and every starting object,
    a second call of [init_all_states] with the same arguments leaves the
    object, and so its state table, as the first call left it. *)
Theorem init_all_states_idempotent
    (ws wd : F) (rotor_pos : list F) (ts : F) (self : States F) :
  exec (FLORIDynOPs4.init_all_states ws wd rotor_pos ts)
       (exec (FLORIDynOPs4.init_all_states ws wd rotor_pos ts) self)
  = exec (FLORIDynOPs4.init_all_states ws wd rotor_pos ts) self /\
  exec (FLORIDynOPs6.init_all_states ws wd rotor_pos ts)
       (exec (FLORIDynOPs6.init_all_states ws wd rotor_pos ts) self)
  = exec (FLORIDynOPs6.init_all_states ws wd rotor_pos ts) self.
Proof.
  split; [|rewrite init_all_states_6_is_4];
    apply FLORIDynOPs4_second_call.
Qed.

(** C10: on a 4-state and a 6-state chain of the same length, with the same
    arguments, [init_all_states] leaves the same values in columns 0 to 3. *)
Theorem init_all_states_variants_agree
    (ws wd x y z ts : F) (s4 s6 : States F) (j : nat) :
  chain 4 s4 -> chain 6 s6 -> n_time_steps s4 = n_time_steps s6 ->
  j < 4 ->
  col j (states (exec (FLORIDynOPs4.init_all_states ws wd [x; y; z] ts) s4))
  = col j (states (exec (FLORIDynOPs6.init_all_states ws wd [x; y; z] ts) s6)).
Proof.
  intros H4 H6 Hn Hj.
  change (@FLORIDynOPs6.init_all_states F SF)
    with (@FLORIDynOPs4.init_all_states F SF).
  destruct (@init_all_states_cols F SF 4 ws wd x y z ts s4 H4)
    as (A0 & A1 & A2 & A3 & _); [lia|].
  destruct (@init_all_states_cols F SF 6 ws wd x y z ts s6 H6)
    as (B0 & B1 & B2 & B3 & _); [lia|].
  destruct j as [|[|[|[|j]]]]; try lia; congruence.
Qed.

(** C8: [set_all_states] with a table whose shape is not exactly N x W, and
    so with one of shape (N, W+1), raises and leaves the object unchanged. *)
Theorem set_all_states_shape_mismatch
    (table : ndarray F) (self : States F) :
  (shape table <> (n_time_steps self, n_states self) ->
   set_all_states table self = (inl ValueError, self)) /\
  (shape table = (n_time_steps self, n_states self + 1) ->
   set_all_states table self = (inl ValueError, self)).
Proof.
  assert (G : shape table <> (n_time_steps self, n_states self) ->
              set_all_states table self = (inl ValueError, self)).
  { intros Hne. unfold set_all_states, bind, getattr_int, getattr, ret, raise.
    cbn.
    destruct (nrows table =? n_time_steps self) eqn:En; [|reflexivity].
    destruct (ncols table =? n_states self) eqn:Ew; [|reflexivity].
    apply Nat.eqb_eq in En, Ew. exfalso. apply Hne.
    unfold shape. congruence. }
  split; [exact G|].
  intros He. apply G. rewrite He. intros Hc.
  injection Hc. lia.
Qed.

End InitClaims.

(** ** The wind-farm aggregate *)

(** C9: the constructor stores the turbine list and the settings it is
    given, and the time-step counter of the new wind farm reads -1. *)
Theorem WindFarm_init (Turbine Setting : Type)
    (turbines : list Turbine) (settings_sol : WindFarm.dict Setting) :
  WindFarm.turbines (WindFarm.__init__ turbines settings_sol) = turbines /\
  WindFarm.settings_sol (WindFarm.__init__ turbines settings_sol)
  = settings_sol /\
  WindFarm.time_step (WindFarm.__init__ turbines settings_sol) = (-1)%Z.
Proof. repeat split. Qed.

(** ** Real arithmetic *)

Section RealFacts.
Open Scope R_scope.

Lemma deg2rad_0 : OFFTools.deg2rad 0 = 0.
Proof.
  unfold OFFTools.deg2rad; cbn [mul div pi of_nat Scalar_R].
  unfold Rdiv. now rewrite !Rmult_0_l.
Qed.

Lemma trig_0 :
  Rtrigo_def.cos (OFFTools.deg2rad 0) = 1 /\
  Rtrigo_def.sin (OFFTools.deg2rad 0) = 0.
Proof. rewrite deg2rad_0. split; [apply cos_0 | apply sin_0]. Qed.

Lemma nth_ramp (n i : nat) (ws : R) :
  (i < n)%nat -> nth i (ramp n ws) 0 = INR i * ws.
Proof.
  intros Hi. unfold ramp, arange.
  rewrite nth_indep with (d' := (fun k => of_nat k * ws)%np O)
    by (now rewrite length_map, length_seq).
  rewrite (map_nth (fun k => of_nat k * ws)%np (seq 0 n) O i).
  rewrite seq_nth by assumption. reflexivity.
Qed.

Lemma nth_xs (n i : nat) (ws wd x : R) :
  (i < n)%nat ->
  nth i (xs n ws wd x) 0
  = Rtrigo_def.cos (OFFTools.deg2rad wd) * (INR i * ws) + x.
Proof.
  intros Hi. unfold xs.
  rewrite nth_indep
    with (d' := (fun d => cos (OFFTools.deg2rad wd) * d + x)%np 0)
    by (now rewrite length_map, ramp_length).
  rewrite (map_nth (fun d => cos (OFFTools.deg2rad wd) * d + x)%np
             (ramp n ws) 0 i).
  now rewrite nth_ramp.
Qed.

Lemma nth_ys (n i : nat) (ws wd y : R) :
  (i < n)%nat ->
  nth i (ys n ws wd y) 0
  = Rtrigo_def.sin (OFFTools.deg2rad wd) * (INR i * ws) + y.
Proof.
  intros Hi. unfold ys.
  rewrite nth_indep
    with (d' := (fun d => sin (OFFTools.deg2rad wd) * d + y)%np 0)
    by (now rewrite length_map, ramp_length).
  rewrite (map_nth (fun d => sin (OFFTools.deg2rad wd) * d + y)%np
             (ramp n ws) 0 i).
  now rewrite nth_ramp.
Qed.

End RealFacts.

(** ** Claims about the values, in real arithmetic *)

Section ValueClaims.
Open Scope R_scope.

(** C3: a 4-state chain of five rows initialised with wind speed 8,
    direction 0, rotor at (100, 200, 50) and time step 1 has x = 100, 108,
    116, 124, 132, y = 200 and z = 50 in every row, and downstream distance
    0, 8, 16, 24, 32. *)
Theorem FLORIDynOPs4_scenario (self : States R) :
  chain 4 self -> n_time_steps self = 5%nat ->
  let self' :=
    exec (FLORIDynOPs4.init_all_states 8 0 [100; 200; 50] 1) self in
  col 0 (states self') = [100; 108; 116; 124; 132] /\
  col 1 (states self') = [200; 200; 200; 200; 200] /\
  col 2 (states self') = [50; 50; 50; 50; 50] /\
  col 3 (states self') = [0; 8; 16; 24; 32].
Proof.
  intros Hc Hn self'. subst self'.
  destruct (@init_all_states_cols R _ 4 8 0 100 200 50 1 self Hc)
    as (H0 & H1 & H2 & H3 & _); [lia|].
  rewrite H0, H1, H2, H3, Hn.
  destruct trig_0 as [Hcos Hsin].
  unfold xs, ys, ramp, arange.
  cbn [seq map repeat cos sin mul add of_nat Scalar_R INR].
  rewrite Hcos, Hsin.
  repeat split; repeat (f_equal; try lra).
Qed.

(** C2, as stated, fails: on a fresh 6-state chain of two rows, initialised
    with wind speed 1, the wake-frame column 3 does not keep its values. *)
Lemma FLORIDynOPs6_init_all_states_writes_column_3 :
  let self := FLORIDynOPs6.__init__ 2 in
  let self' :=
    exec (FLORIDynOPs6.init_all_states 1 0 [0; 0; 0] 1) self in
  ~ (col 3 (states self') = col 3 (states self) /\
     col 4 (states self') = col 4 (states self) /\
     col 5 (states self') = col 5 (states self)).
Proof.
  intros self self' [H _]. subst self'.
  change (@FLORIDynOPs6.init_all_states R _)
    with (@FLORIDynOPs4.init_all_states R _) in H.
  destruct (@init_all_states_cols R _ 6 1 0 0 0 0 1 self
              (chain_FLORIDynOPs6 2))
    as (_ & _ & _ & H3 & _); [lia|].
  rewrite H3 in H. cbn in H.
  injection H as _ H. lra.
Qed.

End ValueClaims.

(** ** The statements at concrete chains *)

Section Instances.
Open Scope R_scope.

(** A fresh chain satisfies the invariant, by evaluation. *)
Ltac chain_by_evaluation := repeat split; repeat constructor.

Lemma FLORIDynOPs6_init_all_states_columns_witness :
  let self := FLORIDynOPs6.__init__ 2 in
  let self' := exec (FLORIDynOPs6.init_all_states 1 0 [0; 0; 0] 1) self in
  col 4 (states self') = col 4 (states self) /\
  col 5 (states self') = col 5 (states self) /\
  col 3 (states self') = ramp 2 1 /\
  col 0 (states self') = xs 2 1 0 0 /\
  col 1 (states self') = ys 2 1 0 0 /\
  col 2 (states self') = repeat 0 2.
Proof.
  apply (@FLORIDynOPs6_init_all_states_columns R _ 1 0 0 0 0 1
           (FLORIDynOPs6.__init__ 2)).
  chain_by_evaluation.
Defined.

Lemma FLORIDynOPs4_scenario_witness :
  let self' :=
    exec (FLORIDynOPs4.init_all_states 8 0 [100; 200; 50] 1)
         (FLORIDynOPs4.__init__ 5) in
  col 0 (states self') = [100; 108; 116; 124; 132] /\
  col 1 (states self') = [200; 200; 200; 200; 200] /\
  col 2 (states self') = [50; 50; 50; 50; 50] /\
  col 3 (states self') = [0; 8; 16; 24; 32].
Proof.
  apply (@FLORIDynOPs4_scenario (FLORIDynOPs4.__init__ 5)).
  - chain_by_evaluation.
  - reflexivity.
Defined.

Lemma init_all_states_variants_agree_witness :
  col 3 (states (exec (FLORIDynOPs4.init_all_states 8 0 [100; 200; 50] 1)
                      (FLORIDynOPs4.__init__ 3)))
  = col 3 (states (exec (FLORIDynOPs6.init_all_states 8 0 [100; 200; 50] 1)
                        (FLORIDynOPs6.__init__ 3))).
Proof.
  apply (@init_all_states_variants_agree R _ 8 0 100 200 50 1
           (FLORIDynOPs4.__init__ 3) (FLORIDynOPs6.__init__ 3) 3%nat).
  - chain_by_evaluation.
  - chain_by_evaluation.
  - reflexivity.
  - lia.
Defined.

Lemma set_all_states_shape_mismatch_witness :
  set_all_states (zeros 3 5) (FLORIDynOPs4.__init__ 3)
  = (inl ValueError, @FLORIDynOPs4.__init__ R _ 3) /\
  set_all_states (zeros 2 4) (FLORIDynOPs4.__init__ 3)
  = (inl ValueError, @FLORIDynOPs4.__init__ R _ 3).
Proof.
  split.
  - apply (proj2 (@set_all_states_shape_mismatch R (zeros 3 5)
                    (FLORIDynOPs4.__init__ 3))).
    reflexivity.
  - apply (proj1 (@set_all_states_shape_mismatch R (zeros 2 4)
                    (FLORIDynOPs4.__init__ 3))).
    discriminate.
Defined.

(** The failing call of C1: a fresh 6-state chain of one row. *)
Example FLORIDynOPs6_get_world_coord_fresh :
  eval FLORIDynOPs6.get_world_coord (@FLORIDynOPs6.__init__ R _ 1)
  = inl AttributeError.
Proof. reflexivity. Qed.

(** The same call on the 4-state variant returns the 1 x 3 matrix. *)
Example FLORIDynOPs4_get_world_coord_fresh :
  eval FLORIDynOPs4.get_world_coord (@FLORIDynOPs4.__init__ R _ 1)
  = inr (mk_ndarray 1 3 [[0; 0; 0]]).
Proof. reflexivity. Qed.

End Instances.

(** * Further properties of the chain methods *)

(** ** Tables are determined by their columns *)

Section TableFacts.
Context {F : Type} {SF : Scalar F}.

Lemma rows_ext (w : nat) (rs1 rs2 : list (list F)) :
  length rs1 = length rs2 ->
  Forall (fun r => length r = w) rs1 ->
  Forall (fun r => length r = w) rs2 ->
  (forall j, j < w ->
     map (fun r => nth j r zero) rs1 = map (fun r => nth j r zero) rs2) ->
  rs1 = rs2.
Proof.
  revert rs2. induction rs1 as [|r1 rs1 IH]; intros [|r2 rs2] Hl H1 H2 Hc;
    try discriminate; [reflexivity|].
  inversion H1 as [|? ? Hr1 Hrs1]; inversion H2 as [|? ? Hr2 Hrs2]; subst.
  f_equal.
  - apply nth_ext with zero zero; [congruence|].
    intros j Hj. specialize (Hc j Hj). cbn in Hc. now injection Hc.
  - apply IH; auto.
    intros j Hj. specialize (Hc j Hj). cbn in Hc. now injection Hc.
Qed.

(** The rows a call fills do not depend on what columns 0 to 3 held. *)
Lemma filled_absorbs (n w : nat) (ws wd x y z ws' wd' x' y' z' : F)
    (rs : list (list F)) :
  length rs = n -> Forall (fun r => length r = w) rs -> 4 <= w ->
  filled n ws wd x y z (filled n ws' wd' x' y' z' rs)
  = filled n ws wd x y z rs.
Proof.
  intros Hl Hw H4.
  assert (Hl' : length (filled n ws' wd' x' y' z' rs) = n)
    by now rewrite filled_length.
  assert (Hw' : Forall (fun r => length r = w)
                       (filled n ws' wd' x' y' z' rs))
    by now apply filled_widths.
  destruct (filled_cols ws wd x y z Hl Hw H4) as (A0 & A1 & A2 & A3).
  destruct (filled_cols ws wd x y z Hl' Hw' H4) as (B0 & B1 & B2 & B3).
  apply rows_ext with w.
  - now rewrite !filled_length.
  - now apply filled_widths.
  - now apply filled_widths.
  - intros j Hj.
    destruct j as [|[|[|[|j]]]]; try congruence.
    now rewrite !filled_other_cols by lia.
Qed.

(** On rows of width four nothing of the old rows is left. *)
Lemma filled_width_4 (n : nat) (ws wd x y z : F) (rs1 rs2 : list (list F)) :
  length rs1 = n -> length rs2 = n ->
  Forall (fun r => length r = 4) rs1 ->
  Forall (fun r => length r = 4) rs2 ->
  filled n ws wd x y z rs1 = filled n ws wd x y z rs2.
Proof.
  intros L1 L2 W1 W2.
  destruct (filled_cols ws wd x y z L1 W1 (le_n 4)) as (A0 & A1 & A2 & A3).
  destruct (filled_cols ws wd x y z L2 W2 (le_n 4)) as (B0 & B1 & B2 & B3).
  apply rows_ext with 4.
  - rewrite !filled_length. congruence.
  - now apply filled_widths.
  - now apply filled_widths.
  - intros j Hj. destruct j as [|[|[|[|j]]]]; try congruence. lia.
Qed.

End TableFacts.

(** ** What [init_all_states] does to any object *)

Section InitAnyObject.
Context {F : Type} {SF : Scalar F}.

Lemma init_all_states_shape_4
    (ws wd : F) (rotor_pos : list F) (ts : F) (self : States F) :
  let self' :=
    exec (FLORIDynOPs4.init_all_states ws wd rotor_pos ts) self in
  shape (states self') = shape (states self) /\
  n_time_steps self' = n_time_steps self /\
  n_states self' = n_states self /\
  (wf (states self) -> wf (states self')).
Proof.
  cbv zeta. unfold exec. rewrite init_all_states_eq. cbv zeta.
  split_checks; cbn [snd]; unfold shape, wf; with_rows_simpl;
    (split; [reflexivity|]); (split; [reflexivity|]);
    (split; [reflexivity|]); try (intros H; exact H);
    intros [Hl Hw]; rewrite !set_col_rows_length;
    (split; [assumption | now repeat apply set_col_rows_widths]).
Qed.

(** Whatever the arguments and whether or not the call raises, on either
    variant [init_all_states] leaves the shape of the table, the stored
    chain length and the stored width as they were, and a table whose rows
    agree with its shape stays one. *)
Theorem init_all_states_keeps_shape
    (ws wd : F) (rotor_pos : list F) (ts : F) (self : States F) :
  wf (states self) ->
  let s4 := exec (FLORIDynOPs4.init_all_states ws wd rotor_pos ts) self in
  let s6 := exec (FLORIDynOPs6.init_all_states ws wd rotor_pos ts) self in
  (shape (states s4) = shape (states self) /\
   n_time_steps s4 = n_time_steps self /\
   n_states s4 = n_states self /\
   wf (states s4)) /\
  (shape (states s6) = shape (states self) /\
   n_time_steps s6 = n_time_steps self /\
   n_states s6 = n_states self /\
   wf (states s6)).
Proof.
  intros Hwf s4 s6. subst s4 s6.
  change (@FLORIDynOPs6.init_all_states F SF)
    with (@FLORIDynOPs4.init_all_states F SF).
  destruct (init_all_states_shape_4 ws wd rotor_pos ts self)
    as (H1 & H2 & H3 & H4).
  specialize (H4 Hwf).
  split; (split; [exact H1|]); (split; [exact H2|]); split; assumption.
Qed.

Lemma init_all_states_frame_4
    (ws wd : F) (rotor_pos : list F) (ts : F) (self : States F) (j : nat) :
  4 <= j ->
  col j (states (exec (FLORIDynOPs4.init_all_states ws wd rotor_pos ts) self))
  = col j (states self).
Proof.
  intros Hj. unfold exec. rewrite init_all_states_eq. cbv zeta.
  split_checks; cbn [snd]; unfold col; with_rows_simpl;
    rewrite ?col_set_col_rows_other by lia; reflexivity.
Qed.

(** Whatever the arguments and whether or not the call raises, on either
    variant [init_all_states] never changes a column of index 4 or more. *)
Theorem init_all_states_frame
    (ws wd : F) (rotor_pos : list F) (ts : F) (self : States F) (j : nat) :
  4 <= j ->
  col j (states (exec (FLORIDynOPs4.init_all_states ws wd rotor_pos ts) self))
  = col j (states self) /\
  col j (states (exec (FLORIDynOPs6.init_all_states ws wd rotor_pos ts) self))
  = col j (states self).
Proof.
  intros Hj.
  change (@FLORIDynOPs6.init_all_states F SF)
    with (@FLORIDynOPs4.init_all_states F SF).
  split; now apply init_all_states_frame_4.
Qed.

End InitAnyObject.

(** ** What [init_all_states] does to a chain *)

Section InitOnChain.
Context {F : Type} {SF : Scalar F}.

(** On a 4-state and on a 6-state chain, with a rotor position of three
    coordinates, [init_all_states] returns normally and leaves a chain of
    the same width and length. *)
Theorem init_all_states_returns_on_chain
    (ws wd x y z ts : F) (s4 s6 : States F) :
  chain 4 s4 -> chain 6 s6 ->
  (eval (FLORIDynOPs4.init_all_states ws wd [x; y; z] ts) s4 = inr tt /\
   chain 4 (exec (FLORIDynOPs4.init_all_states ws wd [x; y; z] ts) s4) /\
   n_time_steps (exec (FLORIDynOPs4.init_all_states ws wd [x; y; z] ts) s4)
   = n_time_steps s4) /\
  (eval (FLORIDynOPs6.init_all_states ws wd [x; y; z] ts) s6 = inr tt /\
   chain 6 (exec (FLORIDynOPs6.init_all_states ws wd [x; y; z] ts) s6) /\
   n_time_steps (exec (FLORIDynOPs6.init_all_states ws wd [x; y; z] ts) s6)
   = n_time_steps s6).
Proof.
  intros H4 H6.
  change (@FLORIDynOPs6.init_all_states F SF)
    with (@FLORIDynOPs4.init_all_states F SF).
  unfold eval, exec.
  rewrite (init_all_states_chain ws wd x y z ts H4 (le_n 4)).
  rewrite (init_all_states_chain ws wd x y z ts H6 (le_S _ _ (le_S _ _ (le_n 4)))).
  cbn [fst snd].
  split; (split; [reflexivity|]);
    (split; [now apply chain_with_rows_filled | reflexivity]).
Qed.

(** A rotor position of fewer than three coordinates makes the call raise
    [IndexError], after the assignments that precede the failing read:
    the columns whose coordinate exists are already written, the others
    keep their values. *)
Lemma init_all_states_short_4 (w : nat)
    (ws wd : F) (rotor_pos : list F) (ts : F) (self : States F) :
  chain w self -> 4 <= w -> length rotor_pos < 3 ->
  let n := n_time_steps self in
  let self' :=
    exec (FLORIDynOPs4.init_all_states ws wd rotor_pos ts) self in
  eval (FLORIDynOPs4.init_all_states ws wd rotor_pos ts) self
  = inl IndexError /\
  (forall x, nth_error rotor_pos 0 = Some x ->
             col 0 (states self') = xs n ws wd x) /\
  (forall y, nth_error rotor_pos 1 = Some y ->
             col 1 (states self') = ys n ws wd y) /\
  (forall j, length rotor_pos <= j ->
             col j (states self') = col j (states self)).
Proof.
  intros ((Hl & Hr) & Hn & Hw & Hs) H4 Hrp n self'. subst n self'.
  assert (Hlt : forall j, j < 4 -> (j <? w) = true)
    by (intros; apply Nat.ltb_lt; lia).
  rewrite Hw in Hr.
  assert (Hlen : length (rows (states self)) = n_time_steps self)
    by congruence.
  unfold eval, exec. rewrite init_all_states_eq. cbv zeta.
  destruct rotor_pos as [|x [|y [|z r]]]; cbn in Hrp; try lia;
    cbn [getitem nth_error]; rewrite ?Hw, ?Hn, ?Hlt by lia;
    rewrite ?broadcast_vector
      by (rewrite ?xs_length, ?ys_length; reflexivity);
    cbn [fst snd]; unfold col; with_rows_simpl.
  - repeat split; intros; try discriminate; reflexivity.
  - split; [reflexivity|]. split; [|split].
    + intros x' Hx. injection Hx as <-.
      apply col_set_col_rows_same;
        [rewrite xs_length; congruence | apply widths_lt with w; [lia|auto]].
    + intros; discriminate.
    + intros j Hj. cbn in Hj.
      rewrite col_set_col_rows_other by lia. reflexivity.
  - split; [reflexivity|]. split; [|split].
    + intros x' Hx. injection Hx as <-.
      rewrite col_set_col_rows_other by discriminate.
      apply col_set_col_rows_same;
        [rewrite xs_length; congruence | apply widths_lt with w; [lia|auto]].
    + intros y' Hy. injection Hy as <-.
      apply col_set_col_rows_same.
      * rewrite ys_length, set_col_rows_length. congruence.
      * apply widths_lt with w; [lia|]. now apply set_col_rows_widths.
    + intros j Hj. cbn in Hj.
      rewrite !col_set_col_rows_other by lia. reflexivity.
Qed.

(** On a chain of either variant, a rotor position of fewer than three
    coordinates makes [init_all_states] raise [IndexError]; the call is not
    all-or-nothing: column 0 and column 1 are already overwritten when their
    coordinate exists, and every column from the missing coordinate on keeps
    its values. *)
Theorem init_all_states_short_rotor_pos
    (ws wd : F) (rotor_pos : list F) (ts : F) (s4 s6 : States F) :
  chain 4 s4 -> chain 6 s6 -> length rotor_pos < 3 ->
  let s4' := exec (FLORIDynOPs4.init_all_states ws wd rotor_pos ts) s4 in
  let s6' := exec (FLORIDynOPs6.init_all_states ws wd rotor_pos ts) s6 in
  (eval (FLORIDynOPs4.init_all_states ws wd rotor_pos ts) s4
   = inl IndexError /\
   (forall x, nth_error rotor_pos 0 = Some x ->
              col 0 (states s4') = xs (n_time_steps s4) ws wd x) /\
   (forall y, nth_error rotor_pos 1 = Some y ->
              col 1 (states s4') = ys (n_time_steps s4) ws wd y) /\
   (forall j, length rotor_pos <= j ->
              col j (states s4') = col j (states s4))) /\
  (eval (FLORIDynOPs6.init_all_states ws wd rotor_pos ts) s6
   = inl IndexError /\
   (forall x, nth_error rotor_pos 0 = Some x ->
              col 0 (states s6') = xs (n_time_steps s6) ws wd x) /\
   (forall y, nth_error rotor_pos 1 = Some y ->
              col 1 (states s6') = ys (n_time_steps s6) ws wd y) /\
   (forall j, length rotor_pos <= j ->
              col j (states s6') = col j (states s6))).
Proof.
  intros H4 H6 Hrp s4' s6'. subst s4' s6'.
  change (@FLORIDynOPs6.init_all_states F SF)
    with (@FLORIDynOPs4.init_all_states F SF).
  split.
  - apply (@init_all_states_short_4 4 ws wd rotor_pos ts s4 H4); [lia|auto].
  - apply (@init_all_states_short_4 6 ws wd rotor_pos ts s6 H6); [lia|auto].
Qed.

(** On a 4-state chain [init_all_states] overwrites the whole table: two
    chains of the same length end up equal, whatever their tables held. *)
Theorem FLORIDynOPs4_init_all_states_overwrites
    (ws wd x y z ts : F) (s1 s2 : States F) :
  chain 4 s1 -> chain 4 s2 -> n_time_steps s1 = n_time_steps s2 ->
  exec (FLORIDynOPs4.init_all_states ws wd [x; y; z] ts) s1
  = exec (FLORIDynOPs4.init_all_states ws wd [x; y; z] ts) s2.
Proof.
  intros H1 H2 Hn. unfold exec.
  rewrite (init_all_states_chain ws wd x y z ts H1 (le_n 4)).
  rewrite (init_all_states_chain ws wd x y z ts H2 (le_n 4)).
  cbn [snd].
  destruct H1 as ((L1 & R1) & N1 & W1 & S1).
  destruct H2 as ((L2 & R2) & N2 & W2 & S2).
  rewrite W1 in R1. rewrite W2 in R2.
  unfold with_rows.
  rewrite (@filled_width_4 F SF (n_time_steps s1) ws wd x y z
             (rows (states s1)) (rows (states s2)))
    by (auto; congruence).
  rewrite Hn. congruence.
Qed.

(** On a chain without rows, of either variant, [init_all_states] returns
    normally and changes nothing. *)
Theorem init_all_states_empty_chain
    (ws wd x y z ts : F) (s4 s6 : States F) :
  chain 4 s4 -> chain 6 s6 ->
  n_time_steps s4 = 0 -> n_time_steps s6 = 0 ->
  FLORIDynOPs4.init_all_states ws wd [x; y; z] ts s4 = (inr tt, s4) /\
  FLORIDynOPs6.init_all_states ws wd [x; y; z] ts s6 = (inr tt, s6).
Proof.
  intros H4 H6 N4 N6.
  change (@FLORIDynOPs6.init_all_states F SF)
    with (@FLORIDynOPs4.init_all_states F SF).
  assert (G : forall w (s : States F), chain w s -> 4 <= w ->
            n_time_steps s = 0 ->
            FLORIDynOPs4.init_all_states ws wd [x; y; z] ts s = (inr tt, s)).
  { intros w s Hc Hw N.
    rewrite (init_all_states_chain ws wd x y z ts Hc Hw).
    destruct Hc as ((Hl & Hr) & Hn & _).
    destruct s as [[nr nc rs] n ns]. cbn in *. subst n nr.
    destruct rs; [reflexivity | discriminate]. }
  split; [apply G with 4 | apply G with 6]; auto; lia.
Qed.

End InitOnChain.

(** ** World coordinates of an initialised chain *)

Section WorldCoordAfterInit.
Context {F : Type} {SF : Scalar F}.

(** On a 4-state chain, [init_all_states] followed by [get_world_coord]
    returns the N x 3 matrix of the x, y and z the call computed: the
    coordinates along the wind direction and the rotor height. *)
Theorem FLORIDynOPs4_world_coord_after_init
    (ws wd x y z ts : F) (self : States F) :
  chain 4 self ->
  let n := n_time_steps self in
  exists a,
    eval (FLORIDynOPs4.init_all_states ws wd [x; y; z] ts ;;;
          FLORIDynOPs4.get_world_coord)%py self = inr a /\
    shape a = (n, 3) /\
    col 0 a = xs n ws wd x /\
    col 1 a = ys n ws wd y /\
    col 2 a = repeat z n.
Proof.
  intros Hc n. subst n.
  pose proof (chain_with_rows_filled ws wd x y z Hc) as Hc'.
  set (self' := with_rows self
                  (filled (n_time_steps self) ws wd x y z
                          (rows (states self)))) in *.
  exists (slice_cols 0 3 (states self')).
  destruct Hc' as (Hwf' & Hn' & Hw' & _).
  destruct (@slice_cols_0_3 F SF 4 (states self') Hwf' Hw')
    as (Hs & _ & Hcols); [lia|].
  pose proof Hc as Hc0.
  destruct Hc as ((Hl & Hr) & Hn & Hw & Hst). rewrite Hw in Hr.
  assert (Hlen : length (rows (states self)) = n_time_steps self)
    by congruence.
  destruct (filled_cols ws wd x y z Hlen Hr (le_n 4))
    as (A0 & A1 & A2 & _).
  split; [|split; [|split; [|split]]].
  - unfold eval, bind.
    rewrite (init_all_states_chain ws wd x y z ts Hc0 (le_n 4)).
    reflexivity.
  - rewrite Hs, Hn'. reflexivity.
  - rewrite Hcols by lia. exact A0.
  - rewrite Hcols by lia. exact A1.
  - rewrite Hcols by lia. exact A2.
Qed.

End WorldCoordAfterInit.

(** ** The geometry of an initialised chain, in real arithmetic *)

Section Geometry.
Open Scope R_scope.

Lemma nth_col_2 (n i : nat) (z : R) :
  (i < n)%nat -> nth i (repeat z n) 0 = z.
Proof. intros Hi. now apply nth_repeat_lt. Qed.

Lemma at_rotor_4 (w N i : nat) (ws wd x y z ts : R) (self : States R) :
  chain w self -> (4 <= w)%nat -> n_time_steps self = N -> (i < N)%nat ->
  i = 0%nat \/ ws = 0 ->
  let a :=
    states (exec (FLORIDynOPs4.init_all_states ws wd [x; y; z] ts) self) in
  nth i (col 0 a) 0 = x /\ nth i (col 1 a) 0 = y /\
  nth i (col 2 a) 0 = z /\ nth i (col 3 a) 0 = 0.
Proof.
  intros Hc Hw HN Hi Hz a. subst a.
  destruct (@init_all_states_cols R _ w ws wd x y z ts self Hc Hw)
    as (H0 & H1 & H2 & H3 & _).
  rewrite H0, H1, H2, H3, HN.
  rewrite nth_xs, nth_ys, nth_ramp, nth_col_2 by assumption.
  assert (Hd : INR i * ws = 0).
  { destruct Hz as [-> | ->]; cbn [INR]; lra. }
  rewrite Hd. repeat split; lra.
Qed.

(** In real arithmetic, on either variant and for every wind direction, the
    first row of an initialised chain is the rotor position with downstream
    distance 0, and with wind speed 0 every row is. *)
Theorem init_all_states_at_rotor
    (N i : nat) (ws wd x y z ts : R) (s4 s6 : States R) :
  chain 4 s4 -> chain 6 s6 ->
  n_time_steps s4 = N -> n_time_steps s6 = N -> (i < N)%nat ->
  i = 0%nat \/ ws = 0 ->
  let a4 :=
    states (exec (FLORIDynOPs4.init_all_states ws wd [x; y; z] ts) s4) in
  let a6 :=
    states (exec (FLORIDynOPs6.init_all_states ws wd [x; y; z] ts) s6) in
  (nth i (col 0 a4) 0 = x /\ nth i (col 1 a4) 0 = y /\
   nth i (col 2 a4) 0 = z /\ nth i (col 3 a4) 0 = 0) /\
  (nth i (col 0 a6) 0 = x /\ nth i (col 1 a6) 0 = y /\
   nth i (col 2 a6) 0 = z /\ nth i (col 3 a6) 0 = 0).
Proof.
  intros H4 H6 N4 N6 Hi Hz a4 a6. subst a4 a6.
  change (@FLORIDynOPs6.init_all_states R _)
    with (@FLORIDynOPs4.init_all_states R _).
  split.
  - apply (@at_rotor_4 4 N i ws wd x y z ts s4); auto.
  - apply (@at_rotor_4 6 N i ws wd x y z ts s6); auto; lia.
Qed.

End Geometry.

(** ** The further properties at concrete chains *)

Section FurtherInstances.
Open Scope R_scope.

Ltac chain_by_evaluation := repeat split; repeat constructor.

Lemma FLORIDynOPs4_get_world_coord_columns_witness :
  exists a,
    FLORIDynOPs4.get_world_coord (FLORIDynOPs4.__init__ 2)
    = (inr a, @FLORIDynOPs4.__init__ R _ 2) /\
    shape a = (2%nat, 3%nat) /\
    wf a /\
    forall j, (j < 3)%nat ->
              col j a = col j (states (@FLORIDynOPs4.__init__ R _ 2)).
Proof.
  apply (@FLORIDynOPs4_get_world_coord_columns R _ (FLORIDynOPs4.__init__ 2)).
  chain_by_evaluation.
Defined.

Lemma FLORIDynOPs4_world_coord_after_init_witness :
  exists a,
    eval (FLORIDynOPs4.init_all_states 8 0 [100; 200; 50] 1 ;;;
          FLORIDynOPs4.get_world_coord)%py (FLORIDynOPs4.__init__ 2)
    = inr a /\
    shape a = (2%nat, 3%nat) /\
    col 0 a = xs 2 8 0 100 /\
    col 1 a = ys 2 8 0 200 /\
    col 2 a = repeat 50 2.
Proof.
  apply (@FLORIDynOPs4_world_coord_after_init R _ 8 0 100 200 50 1
           (FLORIDynOPs4.__init__ 2)).
  chain_by_evaluation.
Defined.

Lemma init_all_states_keeps_shape_witness :
  let self := @FLORIDynOPs6.__init__ R _ 2 in
  let s4 := exec (FLORIDynOPs4.init_all_states 8 0 [100; 200] 1) self in
  let s6 := exec (FLORIDynOPs6.init_all_states 8 0 [100; 200] 1) self in
  (shape (states s4) = shape (states self) /\
   n_time_steps s4 = n_time_steps self /\
   n_states s4 = n_states self /\
   wf (states s4)) /\
  (shape (states s6) = shape (states self) /\
   n_time_steps s6 = n_time_steps self /\
   n_states s6 = n_states self /\
   wf (states s6)).
Proof.
  apply (@init_all_states_keeps_shape R _ 8 0 [100; 200] 1
           (FLORIDynOPs6.__init__ 2)).
  chain_by_evaluation.
Defined.

Lemma init_all_states_frame_witness :
  let self := @FLORIDynOPs6.__init__ R _ 2 in
  col 4 (states (exec (FLORIDynOPs4.init_all_states 8 0 [100; 200; 50] 1)
                      self))
  = col 4 (states self) /\
  col 4 (states (exec (FLORIDynOPs6.init_all_states 8 0 [100; 200; 50] 1)
                      self))
  = col 4 (states self).
Proof.
  apply (@init_all_states_frame R _ 8 0 [100; 200; 50] 1
           (FLORIDynOPs6.__init__ 2) 4%nat).
  lia.
Defined.

Lemma init_all_states_returns_on_chain_witness :
  let s4 := @FLORIDynOPs4.__init__ R _ 2 in
  let s6 := @FLORIDynOPs6.__init__ R _ 2 in
  (eval (FLORIDynOPs4.init_all_states 8 0 [100; 200; 50] 1) s4 = inr tt /\
   chain 4 (exec (FLORIDynOPs4.init_all_states 8 0 [100; 200; 50] 1) s4) /\
   n_time_steps (exec (FLORIDynOPs4.init_all_states 8 0 [100; 200; 50] 1) s4)
   = n_time_steps s4) /\
  (eval (FLORIDynOPs6.init_all_states 8 0 [100; 200; 50] 1) s6 = inr tt /\
   chain 6 (exec (FLORIDynOPs6.init_all_states 8 0 [100; 200; 50] 1) s6) /\
   n_time_steps (exec (FLORIDynOPs6.init_all_states 8 0 [100; 200; 50] 1) s6)
   = n_time_steps s6).
Proof.
  apply (@init_all_states_returns_on_chain R _ 8 0 100 200 50 1
           (FLORIDynOPs4.__init__ 2) (FLORIDynOPs6.__init__ 2)).
  - chain_by_evaluation.
  - chain_by_evaluation.
Defined.

Lemma init_all_states_short_rotor_pos_witness :
  let s4 := @FLORIDynOPs4.__init__ R _ 2 in
  let s6 := @FLORIDynOPs6.__init__ R _ 2 in
  let s4' := exec (FLORIDynOPs4.init_all_states 8 0 [100; 200] 1) s4 in
  let s6' := exec (FLORIDynOPs6.init_all_states 8 0 [100; 200] 1) s6 in
  (eval (FLORIDynOPs4.init_all_states 8 0 [100; 200] 1) s4
   = inl IndexError /\
   (forall x, nth_error [100; 200] 0 = Some x ->
              col 0 (states s4') = xs (n_time_steps s4) 8 0 x) /\
   (forall y, nth_error [100; 200] 1 = Some y ->
              col 1 (states s4') = ys (n_time_steps s4) 8 0 y) /\
   (forall j, (length [100; 200] <= j)%nat ->
              col j (states s4') = col j (states s4))) /\
  (eval (FLORIDynOPs6.init_all_states 8 0 [100; 200] 1) s6
   = inl IndexError /\
   (forall x, nth_error [100; 200] 0 = Some x ->
              col 0 (states s6') = xs (n_time_steps s6) 8 0 x) /\
   (forall y, nth_error [100; 200] 1 = Some y ->
              col 1 (states s6') = ys (n_time_steps s6) 8 0 y) /\
   (forall j, (length [100; 200] <= j)%nat ->
              col j (states s6') = col j (states s6))).
Proof.
  apply (@init_all_states_short_rotor_pos R _ 8 0 [100; 200] 1
           (FLORIDynOPs4.__init__ 2) (FLORIDynOPs6.__init__ 2)).
  - chain_by_evaluation.
  - chain_by_evaluation.
  - cbn. lia.
Defined.

Lemma FLORIDynOPs4_init_all_states_overwrites_witness :
  exec (FLORIDynOPs4.init_all_states 8 0 [100; 200; 50] 1)
       (FLORIDynOPs4.__init__ 2)
  = exec (FLORIDynOPs4.init_all_states 8 0 [100; 200; 50] 1)
         (mk_States (mk_ndarray 2 4 [[1; 2; 3; 4]; [5; 6; 7; 8]]) 2 4).
Proof.
  apply (@FLORIDynOPs4_init_all_states_overwrites R _ 8 0 100 200 50 1
           (FLORIDynOPs4.__init__ 2)
           (mk_States (mk_ndarray 2 4 [[1; 2; 3; 4]; [5; 6; 7; 8]]) 2 4)).
  - chain_by_evaluation.
  - chain_by_evaluation.
  - reflexivity.
Defined.

Lemma init_all_states_empty_chain_witness :
  FLORIDynOPs4.init_all_states 8 0 [100; 200; 50] 1 (FLORIDynOPs4.__init__ 0)
  = (inr tt, @FLORIDynOPs4.__init__ R _ 0) /\
  FLORIDynOPs6.init_all_states 8 0 [100; 200; 50] 1 (FLORIDynOPs6.__init__ 0)
  = (inr tt, @FLORIDynOPs6.__init__ R _ 0).
Proof.
  apply (@init_all_states_empty_chain R _ 8 0 100 200 50 1
           (FLORIDynOPs4.__init__ 0) (FLORIDynOPs6.__init__ 0)).
  - chain_by_evaluation.
  - chain_by_evaluation.
  - reflexivity.
  - reflexivity.
Defined.

Lemma init_all_states_at_rotor_witness :
  let a4 :=
    states (exec (FLORIDynOPs4.init_all_states 8 30 [100; 200; 50] 1)
                 (FLORIDynOPs4.__init__ 3)) in
  let a6 :=
    states (exec (FLORIDynOPs6.init_all_states 8 30 [100; 200; 50] 1)
                 (FLORIDynOPs6.__init__ 3)) in
  (nth 0 (col 0 a4) 0 = 100 /\ nth 0 (col 1 a4) 0 = 200 /\
   nth 0 (col 2 a4) 0 = 50 /\ nth 0 (col 3 a4) 0 = 0) /\
  (nth 0 (col 0 a6) 0 = 100 /\ nth 0 (col 1 a6) 0 = 200 /\
   nth 0 (col 2 a6) 0 = 50 /\ nth 0 (col 3 a6) 0 = 0).
Proof.
  apply (@init_all_states_at_rotor 3 0 8 30 100 200 50 1
           (FLORIDynOPs4.__init__ 3) (FLORIDynOPs6.__init__ 3)).
  - chain_by_evaluation.
  - chain_by_evaluation.
  - reflexivity.
  - reflexivity.
  - lia.
  - left. reflexivity.
Defined.

End FurtherInstances.

(** ** Rows of an initialised chain, for any arithmetic *)

Section RowFacts.
Context {F : Type} {SF : Scalar F}.

Lemma nth_map_lt (A : Type) (f : A -> F) (l : list A) (d : A) (i : nat) :
  i < length l -> nth i (map f l) zero = f (nth i l d).
Proof.
  intros Hi.
  rewrite nth_indep with (d' := f d) by now rewrite length_map.
  apply map_nth.
Qed.

Lemma nth_ramp_any (n i : nat) (ws : F) :
  i < n -> nth i (ramp n ws) zero = (of_nat i * ws)%np.
Proof.
  intros Hi. unfold ramp, arange.
  rewrite (@nth_map_lt nat _ _ O) by now rewrite length_seq.
  now rewrite seq_nth.
Qed.

Lemma nth_xs_any (n i : nat) (ws wd x : F) :
  i < n ->
  nth i (xs n ws wd x) zero
  = (cos (OFFTools.deg2rad wd) * nth i (ramp n ws) zero + x)%np.
Proof.
  intros Hi. unfold xs.
  now rewrite (@nth_map_lt F _ _ zero) by now rewrite ramp_length.
Qed.

Lemma nth_ys_any (n i : nat) (ws wd y : F) :
  i < n ->
  nth i (ys n ws wd y) zero
  = (sin (OFFTools.deg2rad wd) * nth i (ramp n ws) zero + y)%np.
Proof.
  intros Hi. unfold ys.
  now rewrite (@nth_map_lt F _ _ zero) by now rewrite ramp_length.
Qed.

Lemma row_relation_4 (w N i : nat) (ws wd x y z ts : F) (self : States F) :
  chain w self -> 4 <= w -> n_time_steps self = N -> i < N ->
  let a :=
    states (exec (FLORIDynOPs4.init_all_states ws wd [x; y; z] ts) self) in
  nth i (col 0 a) zero
  = (cos (OFFTools.deg2rad wd) * nth i (col 3 a) zero + x)%np /\
  nth i (col 1 a) zero
  = (sin (OFFTools.deg2rad wd) * nth i (col 3 a) zero + y)%np /\
  nth i (col 2 a) zero = z /\
  nth i (col 3 a) zero = (of_nat i * ws)%np.
Proof.
  intros Hc Hw HN Hi a. subst a.
  destruct (@init_all_states_cols F SF w ws wd x y z ts self Hc Hw)
    as (H0 & H1 & H2 & H3 & _).
  rewrite H0, H1, H2, H3, HN.
  rewrite nth_xs_any, nth_ys_any, nth_ramp_any by assumption.
  repeat split. now apply nth_repeat_lt.
Qed.

(** On either variant and for any arithmetic, every row of an initialised
    chain relates its world columns to its column 3: x is
    cos(direction) * column 3 + rotor x, y is sin(direction) * column 3 +
    rotor y, z is the rotor's z, and column 3 is the index times the wind
    speed. *)
Theorem init_all_states_row_relation
    (N i : nat) (ws wd x y z ts : F) (s4 s6 : States F) :
  chain 4 s4 -> chain 6 s6 ->
  n_time_steps s4 = N -> n_time_steps s6 = N -> i < N ->
  let a4 :=
    states (exec (FLORIDynOPs4.init_all_states ws wd [x; y; z] ts) s4) in
  let a6 :=
    states (exec (FLORIDynOPs6.init_all_states ws wd [x; y; z] ts) s6) in
  (nth i (col 0 a4) zero
   = (cos (OFFTools.deg2rad wd) * nth i (col 3 a4) zero + x)%np /\
   nth i (col 1 a4) zero
   = (sin (OFFTools.deg2rad wd) * nth i (col 3 a4) zero + y)%np /\
   nth i (col 2 a4) zero = z /\
   nth i (col 3 a4) zero = (of_nat i * ws)%np) /\
  (nth i (col 0 a6) zero
   = (cos (OFFTools.deg2rad wd) * nth i (col 3 a6) zero + x)%np /\
   nth i (col 1 a6) zero
   = (sin (OFFTools.deg2rad wd) * nth i (col 3 a6) zero + y)%np /\
   nth i (col 2 a6) zero = z /\
   nth i (col 3 a6) zero = (of_nat i * ws)%np).
Proof.
  intros H4 H6 N4 N6 Hi a4 a6. subst a4 a6.
  change (@FLORIDynOPs6.init_all_states F SF)
    with (@FLORIDynOPs4.init_all_states F SF).
  split.
  - apply (@row_relation_4 4 N i ws wd x y z ts s4); auto.
  - apply (@row_relation_4 6 N i ws wd x y z ts s6); auto; lia.
Qed.

End RowFacts.

(** ** Two calls in a row *)

Section TwoCalls.
Context {F : Type} {SF : Scalar F}.

(** What a complete call fills depends on the old rows only through the
    columns of index 4 or more. *)
Lemma filled_determined (n w : nat) (ws wd x y z : F)
    (rs1 rs2 : list (list F)) :
  length rs1 = n -> length rs2 = n ->
  Forall (fun r => length r = w) rs1 ->
  Forall (fun r => length r = w) rs2 ->
  4 <= w ->
  (forall j, 4 <= j ->
     map (fun r => nth j r zero) rs1 = map (fun r => nth j r zero) rs2) ->
  filled n ws wd x y z rs1 = filled n ws wd x y z rs2.
Proof.
  intros L1 L2 W1 W2 H4 Hc.
  destruct (filled_cols ws wd x y z L1 W1 H4) as (A0 & A1 & A2 & A3).
  destruct (filled_cols ws wd x y z L2 W2 H4) as (B0 & B1 & B2 & B3).
  apply rows_ext with w.
  - rewrite !filled_length. congruence.
  - now apply filled_widths.
  - now apply filled_widths.
  - intros j Hj. destruct j as [|[|[|[|j]]]]; try congruence.
    rewrite !filled_other_cols by lia. apply Hc. lia.
Qed.

Lemma init_all_states_after_any_4 (w : nat)
    (ws wd x y z ts ws' wd' : F) (rotor_pos' : list F) (ts' : F)
    (self : States F) :
  chain w self -> 4 <= w ->
  exec (FLORIDynOPs4.init_all_states ws wd [x; y; z] ts)
       (exec (FLORIDynOPs4.init_all_states ws' wd' rotor_pos' ts') self)
  = exec (FLORIDynOPs4.init_all_states ws wd [x; y; z] ts) self.
Proof.
  intros Hc H4.
  set (self1 := exec (FLORIDynOPs4.init_all_states ws' wd' rotor_pos' ts')
                     self).
  pose proof Hc as ((Hl & Hr) & Hn & Hw & Hs).
  destruct (init_all_states_shape_4 ws' wd' rotor_pos' ts' self)
    as (Sh & Nt & Ns & Wf). fold self1 in Sh, Nt, Ns, Wf.
  specialize (Wf (conj Hl Hr)). destruct Wf as (Hl1 & Hr1).
  unfold shape in Sh. injection Sh as Sr Sc.
  assert (Hc1 : chain w self1).
  { repeat split; try assumption; congruence. }
  unfold exec.
  rewrite (init_all_states_chain ws wd x y z ts Hc1 H4).
  rewrite (init_all_states_chain ws wd x y z ts Hc H4).
  cbn [snd]. unfold with_rows.
  rewrite Sr, Sc, Nt, Ns. do 2 f_equal.
  apply filled_determined with w; try congruence.
  - rewrite Sc, Hw in Hr1. exact Hr1.
  - rewrite Hw in Hr. exact Hr.
  - intros j Hj.
    exact (init_all_states_frame_4 ws' wd' rotor_pos' ts' self Hj).
Qed.

(** On a chain of either variant, a call of [init_all_states] with a rotor
    position of three coordinates erases what an earlier call wrote,
    whatever the arguments of the earlier call and also when it raised
    part-way: the object is left as the last call alone would leave it. *)
Theorem init_all_states_last_call_wins
    (ws wd x y z ts ws' wd' : F) (rotor_pos' : list F) (ts' : F)
    (s4 s6 : States F) :
  chain 4 s4 -> chain 6 s6 ->
  exec (FLORIDynOPs4.init_all_states ws wd [x; y; z] ts)
       (exec (FLORIDynOPs4.init_all_states ws' wd' rotor_pos' ts') s4)
  = exec (FLORIDynOPs4.init_all_states ws wd [x; y; z] ts) s4 /\
  exec (FLORIDynOPs6.init_all_states ws wd [x; y; z] ts)
       (exec (FLORIDynOPs6.init_all_states ws' wd' rotor_pos' ts') s6)
  = exec (FLORIDynOPs6.init_all_states ws wd [x; y; z] ts) s6.
Proof.
  intros H4 H6.
  change (@FLORIDynOPs6.init_all_states F SF)
    with (@FLORIDynOPs4.init_all_states F SF).
  split.
  - now apply init_all_states_after_any_4 with 4.
  - apply init_all_states_after_any_4 with 6; [assumption | lia].
Qed.

End TwoCalls.

(** * The values of an initialised chain in [float64] *)

Module Float64Facts.
Import PrimFloat SpecFloat FloatOps Float64.
Open Scope float_scope.

(** ** Products with zero *)

Lemma finite_cases (a : float) :
  finite a ->
  (exists s, Prim2SF a = S754_zero s) \/
  (exists s m e, Prim2SF a = S754_finite s m e).
Proof.
  unfold finite, is_finite, is_nan, is_infinity.
  rewrite !FloatAxioms.eqb_spec, FloatAxioms.abs_spec.
  change (Prim2SF infinity) with (S754_infinity false).
  destruct (Prim2SF a) as [s|s| |s m e]; cbn; try discriminate.
  - left. now exists s.
  - destruct s; discriminate.
  - right. now exists s, m, e.
Qed.


(** [0 * a == 0] for a finite [a]. *)
Lemma mul_zero_finite (a : float) : finite a -> eq64 (0 * a) 0.
Proof.
  intros Ha. unfold eq64.
  rewrite FloatAxioms.eqb_spec, FloatAxioms.mul_spec.
  change (Prim2SF 0) with (S754_zero false).
  destruct (finite_cases Ha) as [(s & ->) | (s & m & e & ->)];
    destruct s; reflexivity.
Qed.


(** ** The amended claims *)

Section WithLibm.
Variables libm_cos libm_sin : float -> float.
Let SF : Scalar float := Scalar_float64 libm_cos libm_sin.


(** C4, as the code has it: after [init_all_states] on a 4-state chain of
    N > 0 rows, column 3 holds in row i the [float64] product of i and the
    wind speed, and so 0 in row 0 for a finite wind speed. *)
Theorem FLORIDynOPs4_ramp_float64
    (N : nat) (ws wd x y z ts : float) (self : States float) :
  chain 4 self -> n_time_steps self = N -> 0 < N ->
  let distance :=
    col (SF := SF) 3
      (states (exec (FLORIDynOPs4.init_all_states (SF := SF)
                       ws wd [x; y; z] ts) self)) in
  length distance = N /\
  (forall i, i < N -> nth i distance 0 = float_of_nat i * ws) /\
  (finite ws -> eq64 (nth 0 distance 0) 0).
Proof.
  intros Hc Hn HN distance. subst distance.
  destruct (@init_all_states_cols float SF 4 ws wd x y z ts self Hc)
    as (_ & _ & _ & H3 & _); [lia|].
  rewrite H3, Hn. split; [apply ramp_length|]. split.
  - intros i Hi. now apply (nth_ramp_any (SF := SF)).
  - intros Hws. rewrite (nth_ramp_any (SF := SF)) by assumption.
    now apply mul_zero_finite.
Qed.



End WithLibm.

(** ** The claims as stated, at [float64] inputs *)

(** C4, as stated, fails: with wind speed 0.1 on a fresh 4-state chain of
    four rows, whatever the C library's cosine and sine, the step from row
    2 to row 3 is 0.10000000000000003 and not the wind speed. *)
Lemma FLORIDynOPs4_ramp_spacing_float64 :
  ~ (exists libm_cos libm_sin : float -> float,
       let SF := Scalar_float64 libm_cos libm_sin in
       let ws := 0x1.999999999999ap-4 in
       let distance :=
         col 3 (states (exec (FLORIDynOPs4.init_all_states
                                ws 0 [0; 0; 0] 1)
                             (FLORIDynOPs4.__init__ 4))) in
       eq64 (nth 0 distance 0) 0 /\
       (forall i, i + 1 < 4 ->
                  eq64 (nth (i + 1) distance 0 - nth i distance 0) ws) /\
       (forall i, i < 4 -> eq64 (nth i distance 0) (float_of_nat i * ws))).
Proof.
  intros (c & s & H). cbv zeta in H. destruct H as (_ & H & _).
  specialize (H 2%nat (le_n 4)). unfold eq64 in H.
  vm_compute in H. discriminate.
Qed.


(** ** The amended claims at concrete chains *)

Lemma FLORIDynOPs4_ramp_float64_witness :
  let SF := Scalar_float64 cos_at_0 sin_at_0 in
  let distance :=
    col 3 (states (exec (FLORIDynOPs4.init_all_states
                           0x1.999999999999ap-4 0 [100; 200; 50] 1)
                        (FLORIDynOPs4.__init__ 4))) in
  length distance = 4%nat /\
  (forall i, i < 4 ->
             nth i distance 0 = float_of_nat i * 0x1.999999999999ap-4) /\
  (finite 0x1.999999999999ap-4 -> eq64 (nth 0 distance 0) 0).
Proof.
  apply (@FLORIDynOPs4_ramp_float64 cos_at_0 sin_at_0 4
           0x1.999999999999ap-4 0 100 200 50 1
           (@FLORIDynOPs4.__init__ float
              (Scalar_float64 cos_at_0 sin_at_0) 4)).
  - repeat split; repeat constructor.
  - reflexivity.
  - lia.
Defined.


End Float64Facts.

(** ** The row relation and the two calls at concrete chains *)

Section LaterInstances.
Open Scope R_scope.

Ltac chain_by_evaluation := repeat split; repeat constructor.

Lemma init_all_states_row_relation_witness :
  let a4 :=
    states (exec (FLORIDynOPs4.init_all_states 8 30 [100; 200; 50] 1)
                 (FLORIDynOPs4.__init__ 3)) in
  let a6 :=
    states (exec (FLORIDynOPs6.init_all_states 8 30 [100; 200; 50] 1)
                 (FLORIDynOPs6.__init__ 3)) in
  (nth 2 (col 0 a4) zero
   = (cos (OFFTools.deg2rad 30) * nth 2 (col 3 a4) zero + 100)%np /\
   nth 2 (col 1 a4) zero
   = (sin (OFFTools.deg2rad 30) * nth 2 (col 3 a4) zero + 200)%np /\
   nth 2 (col 2 a4) zero = 50 /\
   nth 2 (col 3 a4) zero = (of_nat 2 * 8)%np) /\
  (nth 2 (col 0 a6) zero
   = (cos (OFFTools.deg2rad 30) * nth 2 (col 3 a6) zero + 100)%np /\
   nth 2 (col 1 a6) zero
   = (sin (OFFTools.deg2rad 30) * nth 2 (col 3 a6) zero + 200)%np /\
   nth 2 (col 2 a6) zero = 50 /\
   nth 2 (col 3 a6) zero = (of_nat 2 * 8)%np).
Proof.
  apply (@init_all_states_row_relation R _ 3 2 8 30 100 200 50 1
           (FLORIDynOPs4.__init__ 3) (FLORIDynOPs6.__init__ 3)).
  - chain_by_evaluation.
  - chain_by_evaluation.
  - reflexivity.
  - reflexivity.
  - lia.
Defined.

Lemma init_all_states_last_call_wins_witness :
  let s4 := @FLORIDynOPs4.__init__ R _ 2 in
  let s6 := @FLORIDynOPs6.__init__ R _ 2 in
  exec (FLORIDynOPs4.init_all_states 8 0 [100; 200; 50] 1)
       (exec (FLORIDynOPs4.init_all_states 5 90 [1] 1) s4)
  = exec (FLORIDynOPs4.init_all_states 8 0 [100; 200; 50] 1) s4 /\
  exec (FLORIDynOPs6.init_all_states 8 0 [100; 200; 50] 1)
       (exec (FLORIDynOPs6.init_all_states 5 90 [1] 1) s6)
  = exec (FLORIDynOPs6.init_all_states 8 0 [100; 200; 50] 1) s6.
Proof.
  apply (@init_all_states_last_call_wins R _ 8 0 100 200 50 1 5 90 [1] 1
           (FLORIDynOPs4.__init__ 2) (FLORIDynOPs6.__init__ 2)).
  - chain_by_evaluation.
  - chain_by_evaluation.
Defined.

End LaterInstances.
